(** * 03-JaxParallelization: the notebook's array programs, embedded in Rocq

    The notebook [03-JaxParallelization.ipynb] defines a dense layer
    [dense_layer], two hand-batched rewrites ([einsum_layer],
    [transpose_layer]) and a handful of two-argument functions that are
    batched with [jax.vmap].  This file embeds those cells together with the
    part of the array library they call: arrays as a shape and a row-major
    buffer, element arithmetic in the default JAX dtypes (int32 and float32),
    [dot], [einsum], [.T], broadcasting [+] and [*], and [vmap] with
    [in_axes]/[out_axes].

    Floats are IEEE binary32 values: every product and every sum is rounded
    to nearest even, and the terms of a contraction are added from left to
    right.  On the notebook's inputs this gives, bit for bit, the arrays
    that the notebook shows under its cells. *)

From Stdlib Require Import String Ascii DecimalString SpecFloat.
From Stdlib Require Import ZArith QArith Qabs Bool Arith Lia List.
Import ListNotations.

Close Scope Q_scope.
Open Scope nat_scope.

Set Implicit Arguments.

(** ** Exceptions

    Python exceptions that the modelled calls raise.  A call returns either
    an exception or a value. *)

Inductive exn : Type :=
| TypeError (msg : string)
| ValueError (msg : string).

Definition res (A : Type) : Type := (exn + A)%type.

Definition ok {A : Type} (a : A) : res A := inr a.
Definition raise {A : Type} (e : exn) : res A := inl e.

Definition bind {A B : Type} (m : res A) (k : A -> res B) : res B :=
  match m with
  | inl e => inl e
  | inr a => k a
  end.

Notation "x <- m ;; k" := (bind m (fun x => k))
  (at level 61, m at next level, right associativity).

Fixpoint mapM {A B : Type} (f : A -> res B) (l : list A) : res (list B) :=
  match l with
  | [] => ok []
  | a :: r => b <- f a ;; bs <- mapM f r ;; ok (b :: bs)
  end.

(** ** Element arithmetic *)

(** The operations that the notebook uses on array elements.  [of_int] and
    [of_float] read an integer and a decimal literal of the source. *)
Class Num (T : Type) : Type := {
  zero : T;
  add : T -> T -> T;
  mul : T -> T -> T;
  of_int : Z -> T;
  of_float : Q -> T
}.

(** *** IEEE binary32 and binary64, after [SpecFloat] *)

Module F32.
Definition prec : Z := 24.
Definition emax : Z := 128.

Definition of_Z (z : Z) : spec_float := binary_normalize prec emax z 0 false.
Definition fadd : spec_float -> spec_float -> spec_float := SFadd prec emax.
Definition fmul : spec_float -> spec_float -> spec_float := SFmul prec emax.
End F32.

Module F64.
Definition prec : Z := 53.
Definition emax : Z := 1024.

Definition of_Z (z : Z) : spec_float := binary_normalize prec emax z 0 false.

(** A decimal literal [n/d] of the source, as Python reads it: the double
    nearest to the quotient. *)
Definition of_decimal (q : Q) : spec_float :=
  SFdiv prec emax (of_Z (Qnum q)) (of_Z (Zpos (Qden q))).

(** [astype(float32)]: round to nearest even. *)
Definition to_f32 (x : spec_float) : spec_float :=
  match x with
  | S754_finite s m e =>
      binary_normalize F32.prec F32.emax (cond_Zopp s (Zpos m)) e s
  | _ => x
  end.
End F64.

(** The exact rational value of a finite float. *)
Definition SF2Q (x : spec_float) : option Q :=
  match x with
  | S754_zero _ => Some 0%Q
  | S754_finite s m e =>
      let v := match e with
               | Z0 => inject_Z (Zpos m)
               | Zpos p => inject_Z (Zpos m * 2 ^ Zpos p)
               | Zneg p => Qmake (Zpos m) (2 ^ p)
               end in
      Some (if s then Qopp v else v)
  | _ => None
  end.

(** *** Scalars of the default dtypes

    Without [jax_enable_x64], an integer literal becomes an int32 (its
    64-bit value truncated) and a decimal literal a float32 (the double
    that Python reads, rounded once more). *)

Inductive scalar : Type :=
| I32 (z : Z)
| F32 (f : spec_float).

Definition wrap32 (z : Z) : Z :=
  ((z + 2147483648) mod 4294967296 - 2147483648)%Z.

(** Type promotion: int32 with float32 gives float32. *)
Definition to_f32 (a : scalar) : spec_float :=
  match a with
  | I32 z => F32.of_Z z
  | F32 f => f
  end.

Definition scalar_add (a b : scalar) : scalar :=
  match a, b with
  | I32 x, I32 y => I32 (wrap32 (x + y))
  | _, _ => F32 (F32.fadd (to_f32 a) (to_f32 b))
  end.

Definition scalar_mul (a b : scalar) : scalar :=
  match a, b with
  | I32 x, I32 y => I32 (wrap32 (x * y))
  | _, _ => F32 (F32.fmul (to_f32 a) (to_f32 b))
  end.

#[export] Instance scalar_Num : Num scalar := {
  zero := I32 0;
  add := scalar_add;
  mul := scalar_mul;
  of_int z := I32 (wrap32 z);
  of_float q := F32 (F64.to_f32 (F64.of_decimal q))
}.

(** Exact arithmetic on the same literals, to compare against. *)
#[export] Instance Q_Num : Num Q := {
  zero := 0%Q;
  add := Qplus;
  mul := Qmult;
  of_int := inject_Z;
  of_float q := q
}.

Definition scalar2Q (a : scalar) : option Q :=
  match a with
  | I32 z => Some (inject_Z z)
  | F32 f => SF2Q f
  end.

(** ** Arrays

    An array is its shape and its elements in row-major order, as the
    library's device buffers hold them. *)

Record ndarray (T : Type) : Type := mk_array {
  shape : list nat;
  data : list T
}.

Arguments mk_array {T} shape data.
Arguments shape {T} _.
Arguments data {T} _.

Definition size (s : list nat) : nat := fold_right Nat.mul 1 s.

Definition wf {T : Type} (a : ndarray T) : Prop :=
  length (data a) = size (shape a).

(** All multi-indices of a shape, last axis fastest. *)
Fixpoint indices (s : list nat) : list (list nat) :=
  match s with
  | [] => [[]]
  | n :: r => flat_map (fun i => map (cons i) (indices r)) (seq 0 n)
  end.

(** Offset of a multi-index in the buffer. *)
Fixpoint ravel_from (acc : nat) (s idx : list nat) : nat :=
  match s, idx with
  | n :: s', i :: idx' => ravel_from (acc * n + i) s' idx'
  | _, _ => acc
  end.

Definition ravel (s idx : list nat) : nat := ravel_from 0 s idx.

Definition insert_at {A : Type} (k : nat) (x : A) (l : list A) : list A :=
  firstn k l ++ x :: skipn k l.

Definition remove_at {A : Type} (k : nat) (l : list A) : list A :=
  firstn k l ++ skipn (S k) l.

(** Shapes print as Python tuples: [()], [(3,)], [(2, 2)]. *)
Definition show_nat (n : nat) : string :=
  NilEmpty.string_of_uint (Nat.to_uint n).

Definition show_shape (s : list nat) : string :=
  match s with
  | [] => "()"
  | [n] => "(" ++ show_nat n ++ ",)"
  | n :: r =>
      "(" ++ show_nat n
          ++ fold_right (fun m acc => ", " ++ show_nat m ++ acc) ")" r
  end%string.

Section Arrays.
Context {T : Type} `{NumT : Num T}.

Definition get (a : ndarray T) (idx : list nat) : T :=
  nth (ravel (shape a) idx) (data a) zero.

Definition build (s : list nat) (f : list nat -> T) : ndarray T :=
  mk_array s (map f (indices s)).

(** [jnp.array] on a scalar, a list and a list of lists. *)
Definition array0 (x : T) : ndarray T := mk_array [] [x].
Definition array1 (l : list T) : ndarray T := mk_array [length l] l.
Definition array2 (rows : list (list T)) : ndarray T :=
  mk_array [length rows; length (hd [] rows)] (concat rows).

(** Left-to-right sum of the terms of a contraction. *)
Definition sum (l : list T) : T :=
  match l with
  | [] => zero
  | x :: r => fold_left add r x
  end.

(** *** Element-wise operations with broadcasting *)

(** Shapes are aligned at their last axis; an axis of extent 1 stretches. *)
Fixpoint broadcast_rev (r1 r2 : list nat) : option (list nat) :=
  match r1, r2 with
  | [], r => Some r
  | r, [] => Some r
  | a :: r1', b :: r2' =>
      match broadcast_rev r1' r2' with
      | None => None
      | Some r =>
          if a =? b then Some (a :: r)
          else if a =? 1 then Some (b :: r)
          else if b =? 1 then Some (a :: r)
          else None
      end
  end.

Definition broadcast_shapes (s1 s2 : list nat) : option (list nat) :=
  option_map (@rev nat) (broadcast_rev (rev s1) (rev s2)).

(** The index into an operand of shape [s] for result index [idx]. *)
Definition broadcast_index (s idx : list nat) : list nat :=
  map (fun '(n, i) => if n =? 1 then 0 else i)
      (combine s (skipn (length idx - length s) idx)).

Definition binop (name : string) (op : T -> T -> T) (a b : ndarray T)
  : res (ndarray T) :=
  match broadcast_shapes (shape a) (shape b) with
  | None =>
      raise (TypeError (name ++ " got incompatible shapes for broadcasting: "
                          ++ show_shape (shape a) ++ ", "
                          ++ show_shape (shape b) ++ ".")%string)
  | Some s =>
      ok (build s (fun idx =>
                     op (get a (broadcast_index (shape a) idx))
                        (get b (broadcast_index (shape b) idx))))
  end.

(** Python's [a + b] and [a * b] on arrays. *)
Definition array_add : ndarray T -> ndarray T -> res (ndarray T) :=
  binop "add" add.
Definition array_mul : ndarray T -> ndarray T -> res (ndarray T) :=
  binop "mul" mul.

(** [jnp.sin] and the like: a function applied to every element. *)
Definition elementwise (f : T -> T) (a : ndarray T) : ndarray T :=
  mk_array (shape a) (map f (data a)).

(** *** [.T] : the axes reversed *)
Definition transpose (a : ndarray T) : ndarray T :=
  build (rev (shape a)) (fun idx => get a (rev idx)).

(** *** [dot]

    [a.dot(b)] contracts the last axis of [a] with the only axis of a
    one-dimensional [b], or with the second-to-last axis of a [b] of two
    or more dimensions; an operand without axes scales the other. *)
Definition dot (a b : ndarray T) : res (ndarray T) :=
  let mismatch :=
    raise (TypeError ("Incompatible shapes for dot: got "
                        ++ show_shape (shape a) ++ " and "
                        ++ show_shape (shape b) ++ ".")%string) in
  match rev (shape a), rev (shape b) with
  | [], _ | _, [] => array_mul a b
  | k :: ra, [k'] =>
      if k =? k' then
        ok (build (rev ra)
              (fun idx =>
                 sum (map (fun j => mul (get a (idx ++ [j])) (get b [j]))
                          (seq 0 k))))
      else mismatch
  | k :: ra, p :: k' :: rb =>
      if k =? k' then
        let na := length ra in
        let nb := length rb in
        ok (build (rev ra ++ rev rb ++ [p])
              (fun idx =>
                 let ia := firstn na idx in
                 let ib := firstn nb (skipn na idx) in
                 let c := skipn (na + nb) idx in
                 sum (map (fun j => mul (get a (ia ++ [j]))
                                        (get b (ib ++ j :: c)))
                          (seq 0 k))))
      else mismatch
  end.
End Arrays.

(** ** [einsum]

    The explicit form of the notation: comma-separated input subscripts of
    letters, then [->] and the output subscripts.  A label that is missing
    from the output is summed over.  The notebook shows none of the
    ValueError messages below; only the kind of exception is relied on. *)

Fixpoint split_on (c : ascii) (s : list ascii) : list (list ascii) :=
  match s with
  | [] => [[]]
  | x :: r =>
      let parts := split_on c r in
      if Ascii.eqb x c then [] :: parts
      else match parts with
           | p :: ps => (x :: p) :: ps
           | [] => [[x]]
           end
  end.

Definition parse_subscripts (spec : string)
  : option (list (list ascii) * list ascii) :=
  match split_on "-" (list_ascii_of_string spec) with
  | [lhs; ">"%char :: out] => Some (split_on "," lhs, out)
  | _ => None
  end.

Definition label_env : Type := list (ascii * nat).

Fixpoint lookup (c : ascii) (env : label_env) : option nat :=
  match env with
  | [] => None
  | (c', n) :: r => if Ascii.eqb c c' then Some n else lookup c r
  end.

Definition lookup0 (env : label_env) (c : ascii) : nat :=
  match lookup c env with
  | Some n => n
  | None => 0
  end.

(** Record the extent of every label of one subscript; [None] when a label
    is already known with another extent. *)
Fixpoint bind_dims (env : label_env) (term : list ascii) (s : list nat)
  : option label_env :=
  match term, s with
  | c :: term', n :: s' =>
      match lookup c env with
      | Some m => if m =? n then bind_dims env term' s' else None
      | None => bind_dims (env ++ [(c, n)]) term' s'
      end
  | _, _ => Some env
  end.

Section Einsum.
Context {T : Type} `{NumT : Num T}.

Definition product (l : list T) : T :=
  match l with
  | [] => zero
  | x :: r => fold_left mul r x
  end.

(** Every subscript has as many labels as its operand has axes. *)
Fixpoint check_ranks (k : nat) (terms : list (list ascii))
         (ops : list (ndarray T)) : res unit :=
  match terms, ops with
  | term :: terms', a :: ops' =>
      if length term =? length (shape a) then check_ranks (S k) terms' ops'
      else raise (ValueError
                    ("Einstein sum subscript "
                       ++ string_of_list_ascii term
                       ++ " does not contain the correct number of indices for operand "
                       ++ show_nat k ++ ".")%string)
  | _, _ => ok tt
  end.

Fixpoint collect_dims (env : label_env) (terms : list (list ascii))
         (ops : list (ndarray T)) : res label_env :=
  match terms, ops with
  | term :: terms', a :: ops' =>
      match bind_dims env term (shape a) with
      | Some env' => collect_dims env' terms' ops'
      | None => raise (ValueError
                         ("Size of label in subscript "
                            ++ string_of_list_ascii term
                            ++ " does not match previous terms.")%string)
      end
  | _, _ => ok env
  end.

Definition einsum (spec : string) (ops : list (ndarray T))
  : res (ndarray T) :=
  match parse_subscripts spec with
  | None => raise (ValueError "Invalid subscripts for einsum.")
  | Some (terms, out) =>
      if negb (length terms =? length ops) || (length ops =? 0) then
        raise (ValueError
                 "Number of einsum subscripts must be equal to the number of operands.")
      else
        _ <- check_ranks 0 terms ops ;;
        dims <- collect_dims [] terms ops ;;
        if forallb (fun c => match lookup c dims with
                             | Some _ => true
                             | None => false
                             end) out
        then
          let contracted :=
            filter (fun p => negb (existsb (Ascii.eqb (fst p)) out)) dims in
          ok (build (map (lookup0 dims) out)
                (fun oidx =>
                   sum (map (fun cidx =>
                               let env := combine out oidx
                                          ++ combine (map fst contracted) cidx in
                               product
                                 (map (fun p => get (snd p)
                                                    (map (lookup0 env) (fst p)))
                                      (combine terms ops)))
                            (indices (map snd contracted)))))
        else
          raise (ValueError
                   "Output character did not appear in the input.")
  end.
End Einsum.

(** ** [vmap]

    [jax.vmap(f, in_axes, out_axes)] applies [f] to every slice of its
    arguments along their batch axes and stacks the results along
    [out_axes].  An argument whose [in_axes] entry is [None] is passed on
    unchanged to every application. *)

Section Vmap.
Context {T : Type} `{NumT : Num T}.

(** [a[:, ..., i, ...]]: index [i] on one axis, which disappears. *)
Definition take (axis i : nat) (a : ndarray T) : ndarray T :=
  build (remove_at axis (shape a))
        (fun idx => get a (insert_at axis i idx)).

(** The arrays [l], each of shape [s], joined along a new axis. *)
Definition stack (axis : nat) (s : list nat) (l : list (ndarray T))
  : ndarray T :=
  build (insert_at axis (length l) s)
        (fun idx =>
           match nth_error l (nth axis idx 0) with
           | Some a => get a (remove_at axis idx)
           | None => zero
           end).

Definition axis_size (p : option nat * ndarray T) : res (option nat) :=
  match fst p with
  | None => ok None
  | Some k =>
      match nth_error (shape (snd p)) k with
      | Some n => ok (Some n)
      | None =>
          raise (ValueError
                   ("vmap was requested to map its argument along axis "
                      ++ show_nat k
                      ++ ", which implies that its rank should be at least "
                      ++ show_nat (S k) ++ ", but is only "
                      ++ show_nat (length (shape (snd p))) ++ ".")%string)
      end
  end.

(** The one extent that all mapped axes share; [None] when nothing is
    mapped. *)
Fixpoint common_size (l : list (option nat)) : res (option nat) :=
  match l with
  | [] => ok None
  | None :: r => common_size r
  | Some n :: r =>
      m <- common_size r ;;
      match m with
      | None => ok (Some n)
      | Some n' =>
          if n =? n' then ok (Some n)
          else raise (ValueError
                        "vmap got inconsistent sizes for array axes to be mapped.")
      end
  end.

Definition slice_arg (i : nat) (p : option nat * ndarray T) : ndarray T :=
  match fst p with
  | None => snd p
  | Some k => take k i (snd p)
  end.

Definition vmap (f : list (ndarray T) -> res (ndarray T))
           (in_axes : list (option nat)) (out_axes : nat)
           (args : list (ndarray T)) : res (ndarray T) :=
  if negb (length in_axes =? length args) then
    raise (ValueError
             "vmap in_axes specification must be a tree prefix of the corresponding value.")
  else
    let spec := combine in_axes args in
    sizes <- mapM axis_size spec ;;
    n <- common_size sizes ;;
    match n with
    | None =>
        raise (ValueError
                 "vmap must have at least one non-None value in in_axes.")
    | Some n =>
        (* the shape of one result, as tracing [f] finds it *)
        proto <- f (map (slice_arg 0) spec) ;;
        rs <- mapM (fun i => f (map (slice_arg i) spec)) (seq 0 n) ;;
        if length (shape proto) <? out_axes then
          raise (ValueError "vmap out_axes is out of bounds for the result.")
        else ok (stack out_axes (shape proto) rs)
    end.

(** Calling a Python function of one or two positional parameters. *)
Definition apply1 (f : ndarray T -> res (ndarray T))
           (args : list (ndarray T)) : res (ndarray T) :=
  match args with
  | [x] => f x
  | _ => raise (TypeError "wrong number of positional arguments.")
  end.

Definition apply2 (f : ndarray T -> ndarray T -> res (ndarray T))
           (args : list (ndarray T)) : res (ndarray T) :=
  match args with
  | [x; y] => f x y
  | _ => raise (TypeError "wrong number of positional arguments.")
  end.
End Vmap.

(** ** The notebook *)

(** *** The dense layer and its batched rewrites (cells 2 to 10) *)

Section Layers.
Context {T : Type} `{NumT : Num T}.

Definition dense_layer (x : ndarray T) : res (ndarray T) :=
  let W := array2 [[of_float (2 # 10); of_float (4 # 10)];
                   [of_float (9 # 10); of_float (2 # 10)]] in
  let b := array1 [of_float (2 # 10); of_float (3 # 10)] in
  y <- dot W x ;; array_add y b.

Definition einsum_layer (x : ndarray T) : res (ndarray T) :=
  let W := array2 [[of_float (2 # 10); of_float (4 # 10)];
                   [of_float (9 # 10); of_float (2 # 10)]] in
  let b := array1 [of_float (2 # 10); of_float (3 # 10)] in
  y <- einsum "ij,bj->bi" [W; x] ;; array_add y b.

Definition transpose_layer (x : ndarray T) : res (ndarray T) :=
  let W := array2 [[of_float (2 # 10); of_float (4 # 10)];
                   [of_float (9 # 10); of_float (2 # 10)]] in
  let b := array1 [of_float (2 # 10); of_float (3 # 10)] in
  y <- dot x (transpose W) ;; array_add y b.

(** [batched_dense = jax.vmap(dense_layer)], with the default axes 0. *)
Definition batched_dense (x : ndarray T) : res (ndarray T) :=
  vmap (apply1 dense_layer) [Some 0] 0 [x].

(** Cell 2: [inputs = jnp.array([1.1,1.2])]. *)
Definition inputs_single : ndarray T :=
  array1 [of_float (11 # 10); of_float (12 # 10)].

(** Cell 4: [inputs] rebound to the batch of three. *)
Definition inputs : ndarray T :=
  array2 [[of_float (11 # 10); of_float (12 # 10)];
          [of_float (21 # 10); of_float (22 # 10)];
          [of_float (31 # 10); of_float (32 # 10)]].

(** Cell 4: [try: dense_layer(inputs) / except TypeError as exc:
    print(exc)].  The value is what the cell prints; any other exception
    leaves the cell. *)
Definition cell4 : res (list string) :=
  match dense_layer inputs with
  | inl (TypeError msg) => ok [msg]
  | inl e => raise e
  | inr _ => ok []
  end.
End Layers.

(** *** Zipping and non-leading batch axes (cells 13, 15 and 16) *)

Module Zipping.
Section Cells.
Context {T : Type} `{NumT : Num T}.

Definition func (x y : ndarray T) : res (ndarray T) := array_add x y.

Definition x_batched : ndarray T := array1 [of_int 1; of_int 2; of_int 3].
Definition y_batched : ndarray T := array1 [of_int 4; of_int 5; of_int 6].

(** [jax.vmap(func, in_axes = (0,0))(x_batched,y_batched)] *)
Definition cell13 : res (ndarray T) :=
  vmap (apply2 func) [Some 0; Some 0] 0 [x_batched; y_batched].
End Cells.
End Zipping.

Module NonLeading.
Section Cells.
Context {T : Type} `{NumT : Num T}.

Definition x_batched : ndarray T :=
  array2 [[of_int 1; of_int 2; of_int 3]].
Definition y_batched : ndarray T :=
  array2 [[of_int 4]; [of_int 5]; [of_int 6]].

Definition out1 : res (ndarray T) :=
  vmap (apply2 Zipping.func) [Some 1; Some 0] 1 [x_batched; y_batched].

Definition out2 : res (ndarray T) :=
  vmap (apply2 Zipping.func) [Some 1; Some 0] 0 [x_batched; y_batched].
End Cells.
End NonLeading.

(** *** An argument that is not batched (cell 18) *)

Module Unbatched.
Section Cells.
Context {T : Type} `{NumT : Num T}.

Definition func (x y : ndarray T) : res (ndarray T) := array_mul x y.

(** The Python float [3.0]. *)
Definition x : ndarray T := array0 (of_float (3 # 1)).
Definition y : ndarray T := array1 [of_int 3; of_int 4; of_int 5].

(** [jax.vmap(func, in_axes = (None,0))(3.0,jnp.array([3,4,5]))] *)
Definition cell18 : res (ndarray T) :=
  vmap (apply2 func) [None; Some 0] 0 [x; y].
End Cells.
End Unbatched.

(** *** Composition: a grid of all pairs (cell 20) *)

Module Grid.
Section Cells.
Context {T : Type} `{NumT : Num T}.

(** [jnp.sin] on one element, and the [i]-th of the [num] points that
    [jnp.linspace(start, stop)] returns: both are the library's. *)
Variable sin : T -> T.
Variable linspace_point : Z -> Z -> nat -> nat -> T.

(** [jnp.linspace(start, stop)]; [num] is 50 when it is not given. *)
Definition linspace (start stop : Z) : ndarray T :=
  build [50] (fun idx => linspace_point start stop 50 (hd 0 idx)).

Definition x_range : ndarray T := linspace (-5) 5.
Definition y_range : ndarray T := linspace (-2) 2.

Definition func (x y : ndarray T) : res (ndarray T) :=
  array_mul (elementwise sin x) y.

(** [jax.vmap(jax.vmap(func, in_axes = (None,0)), in_axes = (0,None))] *)
Definition grid_func (args : list (ndarray T)) : res (ndarray T) :=
  vmap (vmap (apply2 func) [None; Some 0] 0) [Some 0; None] 0 args.

Definition out : res (ndarray T) := grid_func [x_range; y_range].
End Cells.
End Grid.

(** *** The layer in index notation (cells 1 and 3)

    [y_bi = W_ij x_bj + b_i] for a batch of [n] rows, and
    [y_i = W_ij x_j + b_i] for row [bi] of the batch alone, with the
    weights and the bias that each of the three functions binds. *)

Section IndexNotation.
Context {T : Type} `{NumT : Num T}.

Definition W : ndarray T :=
  array2 [[of_float (2 # 10); of_float (4 # 10)];
          [of_float (9 # 10); of_float (2 # 10)]].

Definition b : ndarray T :=
  array1 [of_float (2 # 10); of_float (3 # 10)].

Definition index_notation (n : nat) (x : ndarray T) : ndarray T :=
  build [n; 2]
    (fun idx =>
       let bi := nth 0 idx 0 in
       let i := nth 1 idx 0 in
       add (sum (map (fun j => mul (get W [i; j]) (get x [bi; j])) (seq 0 2)))
           (get b [i])).

Definition index_notation_row (bi : nat) (x : ndarray T) : ndarray T :=
  build [2]
    (fun idx =>
       let i := nth 0 idx 0 in
       add (sum (map (fun j => mul (get W [i; j]) (get x [bi; j])) (seq 0 2)))
           (get b [i])).
End IndexNotation.

(** ** Reading results *)

(** An index that lies within a shape. *)
Definition in_bounds (idx s : list nat) : Prop := Forall2 lt idx s.

(** [within tol a q]: the element [a] is finite and at most [tol] away from
    the rational [q]. *)
Definition within (tol : Q) (a : scalar) (q : Q) : bool :=
  match scalar2Q a with
  | Some v => Qle_bool (Qabs (v - q)) tol
  | None => false
  end.

(** The arrays that the notebook shows under cells 2 and 6, 8, 10: the
    float32 values that print as these decimals. *)
Definition shown_cell2 : ndarray scalar :=
  array1 [of_float (90000004 # 100000000); of_float (153 # 100)].

Definition shown_batch : ndarray scalar :=
  array2 [[of_float (90000004 # 100000000); of_float (153 # 100)];
          [of_float (15000001 # 10000000); of_float (26299999 # 10000000)];
          [of_float (21000001 # 10000000); of_float (37299998 # 10000000)]].

(** Exact evenly spaced points and a polynomial for the sine, to run the
    grid of cell 20 on rationals. *)
Definition linspace_exact (start stop : Z) (num i : nat) : Q :=
  (inject_Z start
   + inject_Z (Z.of_nat i) * (inject_Z (stop - start) / inject_Z (Z.of_nat (num - 1))))%Q.

Definition sin_taylor (x : Q) : Q :=
  (x - x * x * x / 6 + x * x * x * x * x / 120)%Q.

(** *** The coordinate grid of the plot (cell 20)

    [jnp.meshgrid(x, y, indexing = ...)] on two one-dimensional arrays:
    with ['ij'] the first axis follows [x], with ['xy'] the second. *)

Inductive indexing : Type := xy | ij.

Module GridPlot.
Section Cells.
Context {T : Type} `{NumT : Num T}.

Definition meshgrid (x y : ndarray T) (ind : indexing)
  : res (list (ndarray T)) :=
  match shape x, shape y with
  | [n], [m] =>
      match ind with
      | ij => ok [build [n; m] (fun idx => get x [nth 0 idx 0]);
                  build [n; m] (fun idx => get y [nth 1 idx 0])]
      | xy => ok [build [m; n] (fun idx => get x [nth 1 idx 0]);
                  build [m; n] (fun idx => get y [nth 0 idx 0])]
      end
  | _, _ => raise (ValueError "Arguments to jax.numpy.meshgrid must be 1D.")
  end.

Variable linspace_point : Z -> Z -> nat -> nat -> T.

(** [grid = jnp.meshgrid(x_range,y_range, indexing = 'ij')] *)
Definition grid : res (list (ndarray T)) :=
  meshgrid (Grid.x_range linspace_point) (Grid.y_range linspace_point) ij.
End Cells.
End GridPlot.

(** The dtype of an element. *)
Definition is_float32 (a : scalar) : bool :=
  match a with
  | F32 _ => true
  | I32 _ => false
  end.

(** * Properties *)

(** ** Arithmetic facts *)

Lemma SFmul_comm (prec emax : Z) (x y : spec_float) :
  SFmul prec emax x y = SFmul prec emax y x.
Proof.
  destruct x as [sx | sx | | sx mx ex], y as [sy | sy | | sy my ey];
    simpl; try reflexivity; try (rewrite xorb_comm; reflexivity).
  rewrite xorb_comm, Pos.mul_comm, Z.add_comm. reflexivity.
Qed.

Lemma scalar_mul_comm (a c : scalar) : mul a c = mul c a.
Proof.
  destruct a as [x | f], c as [y | g]; simpl; unfold F32.fmul;
    try (rewrite SFmul_comm; reflexivity).
  rewrite Z.mul_comm. reflexivity.
Qed.

Lemma Q_mul_comm (a c : Q) : mul a c = mul c a.
Proof.
  destruct a as [n d], c as [n' d']. simpl. unfold Qmult. simpl.
  rewrite Z.mul_comm, Pos.mul_comm. reflexivity.
Qed.

(** ** Calls that all succeed *)

Lemma mapM_ok {A B : Type} (f : A -> res B) (g : A -> B) (l : list A) :
  (forall a, In a l -> f a = ok (g a)) -> mapM f l = ok (map g l).
Proof.
  induction l as [| a l IH]; intros H; simpl; [reflexivity |].
  rewrite (H a) by now left. simpl.
  rewrite IH by (intros; apply H; now right). reflexivity.
Qed.

(** ** Indexing

    [build s f] holds [f idx] at every index [idx] within the shape [s]. *)

Ltac index_in_bounds :=
  unfold in_bounds; simpl;
  repeat (first [apply Forall2_nil | apply Forall2_cons]);
  try (assumption || lia).

Lemma length_indices (s : list nat) : length (indices s) = size s.
Proof.
  induction s as [| n r IH]; simpl; [reflexivity |].
  rewrite flat_map_constant_length with (c := size r).
  - now rewrite length_seq.
  - intros i _. now rewrite length_map.
Qed.

Lemma in_indices (s idx : list nat) :
  In idx (indices s) -> in_bounds idx s.
Proof.
  revert idx. induction s as [| n r IH]; intros idx; simpl.
  - intros [<- | []]. constructor.
  - rewrite in_flat_map. intros (i & Hi & Hin).
    apply in_map_iff in Hin. destruct Hin as (tl & <- & Htl).
    apply in_seq in Hi. constructor; [lia | now apply IH].
Qed.

Lemma indices_vector (k : nat) : indices [k] = map (fun j => [j]) (seq 0 k).
Proof.
  simpl. generalize 0. induction k as [| k IH]; intros a; simpl;
    [reflexivity | now rewrite IH].
Qed.

Lemma in_bounds_vector (idx : list nat) (k : nat) :
  in_bounds idx [k] -> exists j, idx = [j] /\ j < k.
Proof.
  intros H. inversion H as [| j k' tl s' Hj Htl]; subst.
  inversion Htl; subst. now exists j.
Qed.

Lemma in_bounds_matrix (idx : list nat) (n k : nat) :
  in_bounds idx [n; k] -> exists i j, idx = [i; j] /\ i < n /\ j < k.
Proof.
  intros H. inversion H as [| i n' tl s' Hi Htl]; subst.
  apply in_bounds_vector in Htl. destruct Htl as (j & -> & Hj).
  now exists i, j.
Qed.

Lemma ravel_from_acc (idx s : list nat) :
  in_bounds idx s ->
  forall acc, ravel_from acc s idx = acc * size s + ravel s idx.
Proof.
  unfold ravel.
  induction 1 as [| i n idx s Hi _ IH]; intros acc; simpl; [lia |].
  rewrite (IH (acc * n + i)), (IH i). lia.
Qed.

Lemma ravel_cons (i n : nat) (idx s : list nat) :
  in_bounds idx s -> ravel (n :: s) (i :: idx) = i * size s + ravel s idx.
Proof. intros H. unfold ravel at 1. simpl. now apply ravel_from_acc. Qed.

Lemma ravel_lt (idx s : list nat) :
  in_bounds idx s -> ravel s idx < size s.
Proof.
  induction 1 as [| i n idx s Hi Hb IH].
  - cbv. lia.
  - rewrite ravel_cons by assumption. simpl. nia.
Qed.

Lemma nth_flat_map_block {B : Type} (f : nat -> list B) (m : nat) (d : B) :
  (forall i, length (f i) = m) ->
  forall n a i k, i < n -> k < m ->
    nth (i * m + k) (flat_map f (seq a n)) d = nth k (f (a + i)) d.
Proof.
  intros Hlen. induction n as [| n IH]; intros a i k Hi Hk; [lia |].
  simpl. destruct i as [| i].
  - rewrite app_nth1 by (rewrite Hlen; lia). now rewrite Nat.add_0_r.
  - replace (S i * m + k) with (length (f a) + (i * m + k))
      by (rewrite Hlen; lia).
    rewrite app_nth2_plus, IH by lia. f_equal. f_equal. lia.
Qed.

Lemma nth_indices (idx s : list nat) (d : list nat) :
  in_bounds idx s -> nth (ravel s idx) (indices s) d = idx.
Proof.
  induction 1 as [| i n idx s Hi Hb IH]; [reflexivity |].
  rewrite ravel_cons by assumption. simpl.
  rewrite (@nth_flat_map_block _ _ (size s)).
  - simpl. rewrite <- IH at 2.
    rewrite (nth_indep _ d (i :: d))
      by (rewrite length_map, length_indices; now apply ravel_lt).
    apply (map_nth (cons i)).
  - intros. now rewrite length_map, length_indices.
  - assumption.
  - now apply ravel_lt.
Qed.

Lemma nth_error_map_seq {A : Type} (g : nat -> A) (n i : nat) :
  i < n -> nth_error (map g (seq 0 n)) i = Some (g i).
Proof.
  intros Hi. rewrite nth_error_map, nth_error_seq.
  destruct (Nat.ltb_spec i n); [reflexivity | lia].
Qed.

Lemma broadcast_index_self (idx s : list nat) :
  in_bounds idx s -> broadcast_index s idx = idx.
Proof.
  intros H. unfold broadcast_index.
  rewrite (Forall2_length H), Nat.sub_diag. simpl.
  induction H as [| i n idx s Hi _ IH]; simpl; [reflexivity |].
  rewrite IH. destruct (Nat.eqb_spec n 1); [f_equal; lia | reflexivity].
Qed.

Lemma broadcast_shapes_self (s : list nat) : broadcast_shapes s s = Some s.
Proof.
  unfold broadcast_shapes.
  assert (H : forall r, broadcast_rev r r = Some r).
  { induction r as [| a r IH]; simpl; [reflexivity |].
    destruct r; rewrite ?IH, Nat.eqb_refl; reflexivity. }
  rewrite H. simpl. now rewrite rev_involutive.
Qed.

(** ** The array operations on arguments of known shape *)

Section ArrayFacts.
Context {T : Type} `{NumT : Num T}.

Lemma get_build (s : list nat) (f : list nat -> T) (idx : list nat) :
  in_bounds idx s -> get (build s f) idx = f idx.
Proof.
  intros H. unfold get, build. simpl.
  rewrite (nth_indep _ zero (f idx))
    by (rewrite length_map, length_indices; now apply ravel_lt).
  rewrite (map_nth f). now rewrite nth_indices.
Qed.

Lemma wf_build (s : list nat) (f : list nat -> T) : wf (build s f).
Proof. unfold wf, build. simpl. now rewrite length_map, length_indices. Qed.

Lemma build_ext (s : list nat) (f g : list nat -> T) :
  (forall idx, in_bounds idx s -> f idx = g idx) -> build s f = build s g.
Proof.
  intros H. unfold build. f_equal. apply map_ext_in.
  intros idx Hin. apply H. now apply in_indices.
Qed.

Lemma get_transpose (a : ndarray T) (idx : list nat) :
  in_bounds idx (rev (shape a)) -> get (transpose a) idx = get a (rev idx).
Proof. intros H. unfold transpose. now rewrite get_build. Qed.

Lemma get_take (a : ndarray T) (axis i : nat) (idx : list nat) :
  in_bounds idx (remove_at axis (shape a)) ->
  get (take axis i a) idx = get a (insert_at axis i idx).
Proof. intros H. unfold take. now rewrite get_build. Qed.

Lemma get_elementwise (f : T -> T) (a : ndarray T) (idx : list nat) :
  wf a -> in_bounds idx (shape a) ->
  get (elementwise f a) idx = f (get a idx).
Proof.
  intros Hwf Hb. unfold get, elementwise. simpl.
  rewrite (nth_indep _ zero (f zero))
    by (rewrite length_map, Hwf; now apply ravel_lt).
  apply map_nth.
Qed.

Lemma dot_matrix_vector (a c : ndarray T) (r k : nat) :
  shape a = [r; k] -> shape c = [k] ->
  dot a c = ok (build [r] (fun idx =>
                  sum (map (fun j => mul (get a (idx ++ [j])) (get c [j]))
                           (seq 0 k)))).
Proof.
  intros Ha Hc. unfold dot. rewrite Ha, Hc. simpl rev. cbv beta iota zeta.
  rewrite Nat.eqb_refl. reflexivity.
Qed.

Lemma dot_matrix_matrix (a c : ndarray T) (r k p : nat) :
  shape a = [r; k] -> shape c = [k; p] ->
  dot a c = ok (build [r; p] (fun idx =>
                  sum (map (fun j => mul (get a (firstn 1 idx ++ [j]))
                                         (get c (j :: skipn 1 idx)))
                           (seq 0 k)))).
Proof.
  intros Ha Hc. unfold dot. rewrite Ha, Hc. simpl rev. cbv beta iota zeta.
  rewrite Nat.eqb_refl. reflexivity.
Qed.

(** A contraction axis whose extents differ is a TypeError. *)
Lemma dot_matrix_matrix_mismatch (a c : ndarray T) (r k k' p : nat) :
  shape a = [r; k] -> shape c = [k'; p] -> k <> k' ->
  dot a c
  = raise (TypeError ("Incompatible shapes for dot: got "
                        ++ show_shape [r; k] ++ " and "
                        ++ show_shape [k'; p] ++ ".")%string).
Proof.
  intros Ha Hc Hk. unfold dot. rewrite Ha, Hc. simpl rev. cbv beta iota zeta.
  destruct (Nat.eqb_spec k k'); [contradiction | reflexivity].
Qed.

Lemma binop_same_shape (name : string) (op : T -> T -> T) (y c : ndarray T) :
  shape y = shape c ->
  binop name op y c
  = ok (build (shape y) (fun idx =>
          op (get y (broadcast_index (shape y) idx))
             (get c (broadcast_index (shape y) idx)))).
Proof.
  intros H. unfold binop. rewrite <- H, broadcast_shapes_self. reflexivity.
Qed.

Lemma array_add_rows (y c : ndarray T) (n k : nat) :
  shape y = [n; k] -> shape c = [k] ->
  array_add y c
  = ok (build [n; k] (fun idx =>
          add (get y (broadcast_index [n; k] idx))
              (get c (broadcast_index [k] idx)))).
Proof.
  intros Hy Hc. unfold array_add, binop, broadcast_shapes.
  rewrite Hy, Hc. simpl. rewrite Nat.eqb_refl. reflexivity.
Qed.

Lemma einsum_ij_bj (a c : ndarray T) (r k n : nat) :
  shape a = [r; k] -> shape c = [n; k] ->
  einsum "ij,bj->bi" [a; c]
  = ok (build [n; r] (fun idx =>
          sum (map (fun j => mul (get a [nth 1 idx 0; j])
                                 (get c [nth 0 idx 0; j]))
                   (seq 0 k)))).
Proof.
  intros Ha Hc. unfold einsum.
  change (parse_subscripts "ij,bj->bi")
    with (Some ([["i"; "j"]; ["b"; "j"]], ["b"; "i"])%char).
  cbn -[indices get sum]. rewrite Ha, Hc.
  cbn -[indices get sum]. rewrite Nat.eqb_refl.
  cbn -[indices get sum]. f_equal. apply build_ext.
  intros idx Hb. apply in_bounds_matrix in Hb.
  destruct Hb as (bi & ii & -> & _ & _).
  rewrite indices_vector, map_map. reflexivity.
Qed.

(** An operand whose rank is not 2 does not fit the subscript [bj]. *)
Lemma einsum_ij_bj_rank (a c : ndarray T) :
  length (shape a) = 2 -> length (shape c) <> 2 ->
  exists msg, einsum "ij,bj->bi" [a; c] = raise (ValueError msg).
Proof.
  intros Ha Hc. unfold einsum.
  change (parse_subscripts "ij,bj->bi")
    with (Some ([["i"; "j"]; ["b"; "j"]], ["b"; "i"])%char).
  cbn -[indices get sum]. rewrite Ha.
  cbn -[indices get sum].
  destruct (length (shape c)) as [| [| [| n]]]; try (eexists; reflexivity).
  contradiction.
Qed.
End ArrayFacts.

(** ** [vmap] as a stack of per-example results *)

Section VmapFacts.
Context {T : Type} `{NumT : Num T}.

Lemma vmap_stack (f : list (ndarray T) -> res (ndarray T))
      (in_axes : list (option nat)) (out_axes : nat)
      (args : list (ndarray T)) (sizes : list (option nat)) (n : nat)
      (g : nat -> ndarray T) :
  length in_axes = length args ->
  mapM axis_size (combine in_axes args) = ok sizes ->
  common_size sizes = ok (Some n) ->
  (forall i, f (map (slice_arg i) (combine in_axes args)) = ok (g i)) ->
  out_axes <= length (shape (g 0)) ->
  vmap f in_axes out_axes args
  = ok (stack out_axes (shape (g 0)) (map g (seq 0 n))).
Proof.
  intros Hlen Hsizes Hn Hf Hout. unfold vmap.
  rewrite Hlen, Nat.eqb_refl. simpl. rewrite Hsizes. simpl.
  rewrite Hn. simpl. rewrite Hf. simpl.
  rewrite (mapM_ok _ g) by (intros; apply Hf). simpl.
  destruct (Nat.ltb_spec (length (shape (g 0))) out_axes); [lia | reflexivity].
Qed.

(** Both arguments batched on their only axis: the results are zipped. *)
Lemma vmap_zip (name : string) (op : T -> T -> T) (x y : ndarray T) (n : nat) :
  shape x = [n] -> shape y = [n] ->
  vmap (apply2 (binop name op)) [Some 0; Some 0] 0 [x; y]
  = ok (build [n] (fun idx => op (get x idx) (get y idx))).
Proof.
  intros Hx Hy.
  rewrite vmap_stack
    with (sizes := [Some n; Some n]) (n := n)
         (g := fun i => build [] (fun _ => op (get x [i]) (get y [i]))).
  - f_equal. unfold stack. rewrite length_map, length_seq.
    apply build_ext. intros idx Hb.
    apply in_bounds_vector in Hb. destruct Hb as (i & -> & Hi).
    simpl. rewrite nth_error_map_seq by assumption. reflexivity.
  - reflexivity.
  - simpl. unfold axis_size. simpl. now rewrite Hx, Hy.
  - simpl. now rewrite Nat.eqb_refl.
  - intros i. cbn [map combine slice_arg fst snd apply2].
    rewrite binop_same_shape by (simpl; now rewrite Hx, Hy).
    simpl shape. rewrite Hx. f_equal. apply build_ext. intros idx Hb.
    inversion Hb; subst.
    rewrite !get_take by (rewrite ?Hx, ?Hy; constructor). reflexivity.
  - simpl. lia.
Qed.

(** The first argument marked [None]: every application receives it whole. *)
Lemma vmap_unbatched_left (name : string) (op : T -> T -> T)
      (x y : ndarray T) (n : nat) :
  shape x = [] -> shape y = [n] ->
  vmap (apply2 (binop name op)) [None; Some 0] 0 [x; y]
  = ok (build [n] (fun idx => op (get x []) (get y idx))).
Proof.
  intros Hx Hy.
  rewrite vmap_stack
    with (sizes := [None; Some n]) (n := n)
         (g := fun i => build [] (fun _ => op (get x []) (get y [i]))).
  - f_equal. unfold stack. rewrite length_map, length_seq.
    apply build_ext. intros idx Hb.
    apply in_bounds_vector in Hb. destruct Hb as (i & -> & Hi).
    simpl. rewrite nth_error_map_seq by assumption. reflexivity.
  - reflexivity.
  - simpl. unfold axis_size. simpl. now rewrite Hy.
  - reflexivity.
  - intros i. cbn [map combine slice_arg fst snd apply2].
    rewrite binop_same_shape by (simpl; now rewrite Hx, Hy).
    rewrite Hx. f_equal. apply build_ext. intros idx Hb.
    inversion Hb; subst.
    rewrite get_take by (rewrite Hy; constructor). reflexivity.
  - simpl. lia.
Qed.
End VmapFacts.

(** ** The dense layer and its rewrites, on any input *)

Section OperandOrder.
Context {T : Type} `{NumT : Num T}.
Hypothesis mul_comm : forall a c : T, mul a c = mul c a.

(** On a vector of two elements [x.dot(W.T)] and [W.dot(x)] add the same
    products in the same order. *)
Lemma transpose_layer_vector (x : ndarray T) :
  shape x = [2] ->
  transpose_layer x = dense_layer x
  /\ exists y0 y1, dense_layer x = ok (mk_array [2] [y0; y1]).
Proof.
  destruct x as [s l]. simpl. intros ->.
  destruct l as [| x0 [| x1 l]]; cbv -[mul add zero of_float];
    rewrite ?(mul_comm zero), ?(mul_comm x0), ?(mul_comm x1);
    (split; [reflexivity | eexists; eexists; reflexivity]).
Qed.
End OperandOrder.

Section LayersOnBatches.
Context {T : Type} `{NumT : Num T}.
Variable x : ndarray T.
Variable n : nat.
Hypothesis Hx : shape x = [n; 2].

Lemma einsum_layer_index_notation : einsum_layer x = ok (index_notation n x).
Proof.
  change (einsum_layer x)
    with (y <- einsum "ij,bj->bi" [W; x] ;; array_add y b).
  rewrite (@einsum_ij_bj _ _ W x 2 2 n) by easy.
  simpl bind. rewrite (@array_add_rows _ _ _ b n 2) by easy.
  f_equal. apply build_ext. intros idx Hb.
  rewrite (broadcast_index_self Hb), get_build by assumption.
  apply in_bounds_matrix in Hb. destruct Hb as (bi & i & -> & Hbi & Hi).
  reflexivity.
Qed.

Lemma dense_layer_row (bi : nat) :
  dense_layer (take 0 bi x) = ok (index_notation_row bi x).
Proof.
  assert (Hs : shape (take 0 bi x) = [2]) by (simpl; now rewrite Hx).
  change (dense_layer (take 0 bi x))
    with (y <- dot W (take 0 bi x) ;; array_add y b).
  rewrite (@dot_matrix_vector _ _ W (take 0 bi x) 2 2) by easy.
  simpl bind. unfold array_add. rewrite binop_same_shape by easy.
  simpl shape. f_equal. apply build_ext. intros idx Hb.
  rewrite (broadcast_index_self Hb), get_build by assumption.
  apply in_bounds_vector in Hb. destruct Hb as (i & -> & Hi).
  simpl map. simpl nth.
  rewrite !get_take by (rewrite Hx; index_in_bounds).
  reflexivity.
Qed.

Lemma take_index_notation (bi : nat) :
  bi < n -> take 0 bi (index_notation n x) = index_notation_row bi x.
Proof.
  intros Hbi. unfold take. simpl shape. simpl remove_at.
  apply build_ext. intros idx Hb.
  apply in_bounds_vector in Hb. destruct Hb as (i & -> & Hi).
  unfold index_notation. rewrite get_build; [reflexivity |].
  index_in_bounds.
Qed.

Lemma batched_dense_index_notation :
  batched_dense x = ok (index_notation n x).
Proof.
  unfold batched_dense.
  rewrite vmap_stack
    with (sizes := [Some n]) (n := n)
         (g := fun bi => index_notation_row bi x).
  - f_equal. unfold stack, index_notation. rewrite length_map, length_seq.
    apply build_ext. intros idx Hb.
    apply in_bounds_matrix in Hb. destruct Hb as (bi & i & -> & Hbi & Hi).
    simpl. rewrite nth_error_map_seq by assumption.
    unfold index_notation_row. rewrite get_build by index_in_bounds.
    reflexivity.
  - reflexivity.
  - simpl. unfold axis_size. simpl. now rewrite Hx.
  - reflexivity.
  - intros i. simpl. apply dense_layer_row.
  - simpl. lia.
Qed.

(** The batched layer refuses at the dot product, whatever the batch holds,
    as soon as it has another number of rows than [W] has columns. *)
Lemma dense_layer_batch_mismatch :
  n <> 2 ->
  dense_layer x
  = raise (TypeError ("Incompatible shapes for dot: got (2, 2) and "
                        ++ show_shape [n; 2] ++ ".")%string).
Proof.
  intros Hn.
  change (dense_layer x) with (y <- dot W x ;; array_add y b).
  rewrite (@dot_matrix_matrix_mismatch _ _ W x 2 2 n 2) by (easy || lia).
  reflexivity.
Qed.

Hypothesis mul_comm : forall a c : T, mul a c = mul c a.

Lemma transpose_layer_index_notation :
  transpose_layer x = ok (index_notation n x).
Proof.
  change (transpose_layer x)
    with (y <- dot x (transpose W) ;; array_add y b).
  rewrite (@dot_matrix_matrix _ _ x (transpose W) n 2 2) by easy.
  simpl bind. rewrite (@array_add_rows _ _ _ b n 2) by easy.
  f_equal. apply build_ext. intros idx Hb.
  rewrite (broadcast_index_self Hb), get_build by assumption.
  apply in_bounds_matrix in Hb. destruct Hb as (bi & i & -> & Hbi & Hi).
  simpl map. unfold index_notation. cbv beta zeta. simpl nth. simpl map.
  rewrite !get_transpose by index_in_bounds.
  simpl rev. simpl app. unfold sum. simpl fold_left.
  rewrite (mul_comm (get x [bi; 0])), (mul_comm (get x [bi; 1])).
  reflexivity.
Qed.

(** The three batched layers agree on every batch of two-element rows, and
    row by row with the unbatched layer. *)
Corollary layers_agree_on_batch :
  einsum_layer x = transpose_layer x
  /\ batched_dense x = transpose_layer x
  /\ exists y, transpose_layer x = ok y
       /\ shape y = [n; 2]
       /\ forall bi, bi < n -> dense_layer (take 0 bi x) = ok (take 0 bi y).
Proof.
  rewrite einsum_layer_index_notation, batched_dense_index_notation,
    transpose_layer_index_notation.
  repeat split. eexists. repeat split.
  intros bi Hbi. rewrite take_index_notation by assumption.
  apply dense_layer_row.
Qed.
End LayersOnBatches.

(** ** The grid function on any two ranges *)

Section GridFacts.
Context {T : Type} `{NumT : Num T}.
Variable sin : T -> T.

Lemma grid_func_scalars (x y : ndarray T) :
  wf x -> shape x = [] -> shape y = [] ->
  Grid.func sin x y
  = ok (build [] (fun _ => mul (sin (get x [])) (get y []))).
Proof.
  intros Hwf Hx Hy. unfold Grid.func, array_mul.
  rewrite binop_same_shape by (simpl; congruence).
  simpl shape. rewrite Hx. f_equal. apply build_ext.
  intros idx Hb. inversion Hb; subst.
  rewrite get_elementwise by (rewrite ?Hx; assumption || constructor).
  reflexivity.
Qed.

Lemma grid_func_inner (x ys : ndarray T) (m : nat) :
  wf x -> shape x = [] -> shape ys = [m] ->
  vmap (apply2 (Grid.func sin)) [None; Some 0] 0 [x; ys]
  = ok (build [m] (fun idx => mul (sin (get x [])) (get ys idx))).
Proof.
  intros Hwf Hx Hys.
  rewrite vmap_stack
    with (sizes := [None; Some m]) (n := m)
         (g := fun j => build [] (fun _ => mul (sin (get x [])) (get ys [j]))).
  - f_equal. unfold stack. rewrite length_map, length_seq.
    apply build_ext. intros idx Hb.
    apply in_bounds_vector in Hb. destruct Hb as (j & -> & Hj).
    simpl. rewrite nth_error_map_seq by assumption. reflexivity.
  - reflexivity.
  - simpl. unfold axis_size. simpl. now rewrite Hys.
  - reflexivity.
  - intros j. cbn [map combine slice_arg fst snd apply2].
    rewrite grid_func_scalars;
      [| assumption | assumption | simpl; now rewrite Hys].
    f_equal. apply build_ext. intros idx _.
    rewrite get_take by (rewrite Hys; constructor). reflexivity.
  - simpl. lia.
Qed.

(** The nested [vmap] evaluates [sin(x)*y] on every pair. *)
Lemma grid_func_outer (xs ys : ndarray T) (n m : nat) :
  shape xs = [n] -> shape ys = [m] ->
  Grid.grid_func sin [xs; ys]
  = ok (build [n; m]
          (fun idx => mul (sin (get xs [nth 0 idx 0])) (get ys [nth 1 idx 0]))).
Proof.
  intros Hxs Hys. unfold Grid.grid_func.
  rewrite vmap_stack
    with (sizes := [Some n; None]) (n := n)
         (g := fun i => build [m] (fun idx => mul (sin (get xs [i])) (get ys idx))).
  - f_equal. unfold stack. rewrite length_map, length_seq.
    apply build_ext. intros idx Hb.
    apply in_bounds_matrix in Hb. destruct Hb as (i & j & -> & Hi & Hj).
    simpl. rewrite nth_error_map_seq by assumption.
    rewrite get_build by index_in_bounds. reflexivity.
  - reflexivity.
  - simpl. unfold axis_size. simpl. now rewrite Hxs.
  - reflexivity.
  - intros i. cbn [map combine slice_arg fst snd].
    rewrite (@grid_func_inner _ ys m);
      [| apply wf_build | simpl; now rewrite Hxs | assumption].
    f_equal. apply build_ext. intros idx _.
    rewrite get_take by (rewrite Hxs; constructor). reflexivity.
  - simpl. lia.
Qed.
End GridFacts.

(** * The notebook's results *)

(** ** The dense layer on the notebook's inputs *)

(** C3.  With the weights [[0.2,0.4],[0.9,0.2]] and the bias [0.2,0.3],
    [dense_layer] on the vector [1.1,1.2] returns the two float32 values
    that print as 0.90000004 and 1.53; each is within 1e-6 of the exact
    value of W.x + b, which is [0.9, 1.53]. *)
Theorem dense_layer_single_input :
  dense_layer inputs_single = ok shown_cell2
  /\ forallb (fun p => within (1 # 1000000) (fst p) (snd p))
             (combine (data shown_cell2) [9 # 10; 153 # 100]%Q) = true
  /\ exists y : ndarray Q,
       dense_layer inputs_single = ok y
       /\ shape y = [2]
       /\ Forall2 Qeq (data y) [9 # 10; 153 # 100]%Q.
Proof.
  split; [vm_compute; reflexivity |].
  split; [vm_compute; reflexivity |].
  eexists. split; [vm_compute; reflexivity |].
  split; [reflexivity |].
  repeat constructor.
Qed.

(** C2.  [dense_layer] on the batch of three inputs raises the TypeError of
    the (2, 2) by (3, 2) dot product and returns nothing; cell 4 catches
    it and prints its message, whatever the element type. *)
Theorem dense_layer_batch_raises (T : Type) (NumT : Num T) :
  dense_layer (T := T) inputs
  = raise (TypeError "Incompatible shapes for dot: got (2, 2) and (3, 2).")
  /\ cell4 (T := T)
     = ok ["Incompatible shapes for dot: got (2, 2) and (3, 2)."%string].
Proof.
  assert (H : dense_layer (T := T) inputs
              = raise (TypeError
                         "Incompatible shapes for dot: got (2, 2) and (3, 2).")).
  { rewrite dense_layer_batch_mismatch with (n := 3); [reflexivity .. | lia]. }
  split; [exact H |]. unfold cell4. rewrite H. reflexivity.
Qed.

(** C1.  On the batch [[1.1,1.2],[2.1,2.2],[3.1,3.2]], [einsum_layer],
    [transpose_layer] and [jax.vmap(dense_layer)] return one and the same
    3x2 array, the one the notebook shows, and its row [i] is what
    [dense_layer] returns on row [i] of the batch. *)
Theorem batched_layers_agree :
  einsum_layer inputs = ok shown_batch
  /\ transpose_layer inputs = ok shown_batch
  /\ batched_dense inputs = ok shown_batch
  /\ shape shown_batch = [3; 2]
  /\ Forall (fun i => dense_layer (take 0 i inputs) = ok (take 0 i shown_batch))
            (seq 0 3).
Proof.
  assert (Hv : index_notation 3 inputs = shown_batch)
    by (vm_compute; reflexivity).
  rewrite einsum_layer_index_notation with (n := 3) by reflexivity.
  rewrite transpose_layer_index_notation with (n := 3)
    by first [reflexivity | apply scalar_mul_comm].
  rewrite batched_dense_index_notation with (n := 3) by reflexivity.
  rewrite Hv. repeat split. rewrite <- Hv.
  repeat constructor;
    rewrite take_index_notation by lia;
    apply dense_layer_row with (n := 3); reflexivity.
Qed.

(** C9.  [einsum_layer] on the unbatched vector [1.1,1.2] raises a
    ValueError, because the subscript [bj] names two axes and the vector
    has one; [dense_layer] and [transpose_layer] both return a value on
    that vector. *)
Theorem einsum_layer_unbatched_raises (T : Type) (NumT : Num T) :
  (exists msg, einsum_layer (T := T) inputs_single = raise (ValueError msg))
  /\ (exists y, dense_layer (T := T) inputs_single = ok y)
  /\ (exists y, transpose_layer (T := T) inputs_single = ok y).
Proof.
  split; [| split; eexists; vm_compute; reflexivity].
  destruct (@einsum_ij_bj_rank T NumT W inputs_single) as (msg & Hmsg);
    [reflexivity | simpl; lia |].
  exists msg.
  change (einsum_layer (T := T) inputs_single)
    with (y <- einsum "ij,bj->bi" [W; inputs_single] ;; array_add y b).
  now rewrite Hmsg.
Qed.

(** C8.  On every vector [x] of two elements [transpose_layer x] returns
    exactly what [dense_layer x] returns, and that is a vector of two
    elements. *)
Theorem transpose_layer_unbatched (x : ndarray scalar) :
  shape x = [2] ->
  transpose_layer x = dense_layer x
  /\ exists y0 y1, dense_layer x = ok (mk_array [2] [y0; y1]).
Proof. apply transpose_layer_vector, scalar_mul_comm. Qed.

Lemma transpose_layer_unbatched_witness :
  shape (inputs_single (T := scalar)) = [2]
  /\ transpose_layer (inputs_single (T := scalar)) = dense_layer inputs_single.
Proof.
  split; [reflexivity |].
  apply (transpose_layer_unbatched inputs_single). reflexivity.
Defined.

(** ** Batching functions of two arguments *)

(** C5.  [jax.vmap(func, in_axes = (0,0))] with [func(x,y) = x+y] on
    [1,2,3] and [4,5,6] returns [5,7,9]: element [i] is [x[i] + y[i]]. *)
Theorem vmap_zip_add :
  Zipping.cell13 = ok (array1 [I32 5; I32 7; I32 9])
  /\ Forall (fun i =>
               get (array1 [I32 5; I32 7; I32 9]) [i]
               = add (get Zipping.x_batched [i]) (get Zipping.y_batched [i]))
            (seq 0 3).
Proof.
  split; [| repeat constructor].
  unfold Zipping.cell13, Zipping.func, array_add.
  rewrite vmap_zip with (n := 3) by reflexivity. reflexivity.
Qed.

(** C6.  With [in_axes = (1,0)] on [x] of shape (1,3) and [y] of shape
    (3,1), [out_axes=1] gives [[5,7,9]] of shape (1,3) and [out_axes=0]
    gives [[5],[7],[9]] of shape (3,1). *)
Theorem vmap_non_leading_axes :
  NonLeading.out1 = ok (array2 [[I32 5; I32 7; I32 9]])
  /\ shape (array2 [[I32 5; I32 7; I32 9]]) = [1; 3]
  /\ NonLeading.out2 = ok (array2 [[I32 5]; [I32 7]; [I32 9]])
  /\ shape (array2 [[I32 5]; [I32 7]; [I32 9]]) = [3; 1].
Proof. repeat split; vm_compute; reflexivity. Qed.

(** C7.  [jax.vmap(func, in_axes = (None,0))] with [func(x,y) = x*y] on
    [3.0] and [3,4,5] returns the floats [9,12,15]; the argument marked
    [None] reaches every application unchanged, so element [i] is
    [3.0 * y[i]]. *)
Theorem vmap_unbatched_argument :
  Unbatched.cell18
  = ok (array1 [F32 (F32.of_Z 9); F32 (F32.of_Z 12); F32 (F32.of_Z 15)])
  /\ (forall i, slice_arg i (None, Unbatched.x (T := scalar)) = Unbatched.x)
  /\ Forall (fun i =>
               Unbatched.func Unbatched.x (take 0 i Unbatched.y)
               = ok (array0 (mul (get Unbatched.x []) (get Unbatched.y [i])))
               /\ get (array1 [F32 (F32.of_Z 9); F32 (F32.of_Z 12);
                               F32 (F32.of_Z 15)]) [i]
                  = mul (get Unbatched.x []) (get Unbatched.y [i]))
            (seq 0 3).
Proof.
  split; [| split; [reflexivity | repeat constructor]].
  unfold Unbatched.cell18, Unbatched.func, array_mul.
  rewrite vmap_unbatched_left with (n := 3) by reflexivity.
  vm_compute. reflexivity.
Qed.

(** ** The grid of cell 20 *)

Section GridEntries.
Context {T : Type} `{NumT : Num T}.
Variable sin : T -> T.
Variable linspace_point : Z -> Z -> nat -> nat -> T.

Let x_range : ndarray T := Grid.x_range linspace_point.
Let y_range : ndarray T := Grid.y_range linspace_point.

(** C4.  The nested [vmap] of [func(x,y) = sin(x)*y] on the two ranges
    of 50 points returns a 50x50 array whose entry [(i,j)] is
    [sin(x_range[i]) * y_range[j]], for all [i] and [j] below 50. *)
Theorem grid_entries :
  exists g,
    Grid.out sin linspace_point = ok g
    /\ shape g = [50; 50]
    /\ wf g
    /\ forall i j, i < 50 -> j < 50 ->
         get g [i; j] = mul (sin (get x_range [i])) (get y_range [j]).
Proof.
  eexists. split.
  - unfold Grid.out. apply grid_func_outer with (n := 50) (m := 50);
      reflexivity.
  - split; [reflexivity |]. split; [apply wf_build |].
    intros i j Hi Hj. rewrite get_build by index_in_bounds. reflexivity.
Qed.
End GridEntries.

Lemma grid_entries_witness :
  exists g,
    Grid.out sin_taylor linspace_exact = ok g
    /\ get g [3; 7]
       = mul (sin_taylor (get (Grid.x_range linspace_exact) [3]))
             (get (Grid.y_range linspace_exact) [7]).
Proof.
  destruct (grid_entries sin_taylor linspace_exact) as (g & Hout & _ & _ & Hget).
  exists g. split; [exact Hout |].
  apply Hget; lia.
Defined.

(** * Further properties of the notebook's functions *)

(** ** More array facts *)

Lemma bind_ok {A B : Type} (m : res A) (k : A -> res B) (y : B) :
  bind m k = ok y -> exists a, m = ok a /\ k a = ok y.
Proof.
  destruct m as [e | a]; simpl; intros H; [discriminate |].
  now exists a.
Qed.

Lemma mapM_length {A B : Type} (f : A -> res B) (l : list A) (r : list B) :
  mapM f l = ok r -> length r = length l.
Proof.
  revert r. induction l as [| a l IH]; simpl; intros r H.
  - injection H as <-. reflexivity.
  - apply bind_ok in H. destruct H as (y & _ & H).
    apply bind_ok in H. destruct H as (ys & Hys & H).
    injection H as <-. simpl. f_equal. now apply IH.
Qed.

Lemma broadcast_shapes_scalar (s : list nat) : broadcast_shapes s [] = Some s.
Proof.
  unfold broadcast_shapes. simpl.
  replace (broadcast_rev (rev s) []) with (Some (rev s))
    by (destruct (rev s); reflexivity).
  simpl. now rewrite rev_involutive.
Qed.

Section MoreArrayFacts.
Context {T : Type} `{NumT : Num T}.

Lemma binop_wf (name : string) (op : T -> T -> T) (a c y : ndarray T) :
  binop name op a c = ok y -> wf y.
Proof.
  unfold binop. destruct (broadcast_shapes (shape a) (shape c));
    intros H; [| discriminate].
  injection H as <-. apply wf_build.
Qed.

Lemma binop_scalar_right (name : string) (op : T -> T -> T)
      (a c : ndarray T) :
  shape c = [] ->
  binop name op a c
  = ok (build (shape a) (fun idx =>
          op (get a (broadcast_index (shape a) idx)) (get c []))).
Proof.
  intros Hc. unfold binop. rewrite Hc, broadcast_shapes_scalar. reflexivity.
Qed.

Lemma dot_scalar_right (a c : ndarray T) :
  shape c = [] -> dot a c = array_mul a c.
Proof.
  intros Hc. unfold dot. rewrite Hc. simpl rev.
  destruct (rev (shape a)); reflexivity.
Qed.

Lemma dot_matrix_vector_mismatch (a c : ndarray T) (r k k' : nat) :
  shape a = [r; k] -> shape c = [k'] -> k <> k' ->
  dot a c
  = raise (TypeError ("Incompatible shapes for dot: got "
                        ++ show_shape [r; k] ++ " and "
                        ++ show_shape [k'] ++ ".")%string).
Proof.
  intros Ha Hc Hk. unfold dot. rewrite Ha, Hc. simpl rev. cbv beta iota zeta.
  destruct (Nat.eqb_spec k k'); [contradiction | reflexivity].
Qed.

Lemma dot_vector_matrix_mismatch (a c : ndarray T) (k k' p : nat) :
  shape a = [k] -> shape c = [k'; p] -> k <> k' ->
  dot a c
  = raise (TypeError ("Incompatible shapes for dot: got "
                        ++ show_shape [k] ++ " and "
                        ++ show_shape [k'; p] ++ ".")%string).
Proof.
  intros Ha Hc Hk. unfold dot. rewrite Ha, Hc. simpl rev. cbv beta iota zeta.
  destruct (Nat.eqb_spec k k'); [contradiction | reflexivity].
Qed.

Lemma einsum_ij_bj_width (a c : ndarray T) (r k n k' : nat) :
  shape a = [r; k] -> shape c = [n; k'] -> k <> k' ->
  exists msg, einsum "ij,bj->bi" [a; c] = raise (ValueError msg).
Proof.
  intros Ha Hc Hk. unfold einsum.
  change (parse_subscripts "ij,bj->bi")
    with (Some ([["i"; "j"]; ["b"; "j"]], ["b"; "i"])%char).
  cbn -[indices get sum]. rewrite Ha, Hc.
  cbn -[indices get sum].
  destruct (Nat.eqb_spec k k'); [contradiction |].
  eexists. reflexivity.
Qed.
End MoreArrayFacts.

(** ** The layers on inputs of any size *)

(** X1.  On every float32 or int32 batch of shape (n,2) the three batched
    layers return the same array of shape (n,2), and its row [bi] is what
    [dense_layer] returns on row [bi] of the batch. *)
Theorem layers_agree_on_every_batch (x : ndarray scalar) (n : nat) :
  shape x = [n; 2] ->
  einsum_layer x = transpose_layer x
  /\ batched_dense x = transpose_layer x
  /\ exists y, transpose_layer x = ok y
       /\ shape y = [n; 2]
       /\ forall bi, bi < n -> dense_layer (take 0 bi x) = ok (take 0 bi y).
Proof.
  intros Hx. apply layers_agree_on_batch; [exact Hx | exact scalar_mul_comm].
Qed.

Lemma layers_agree_on_every_batch_witness :
  shape (inputs (T := scalar)) = [3; 2]
  /\ einsum_layer (inputs (T := scalar)) = transpose_layer inputs.
Proof.
  split; [reflexivity |].
  apply (layers_agree_on_every_batch inputs (n := 3)). reflexivity.
Defined.







(** X5.  That result is not the batched one: there is a batch of two rows
    on which [dense_layer] and [jax.vmap(dense_layer)] both return an array
    of shape (2,2), and the two arrays differ. *)
Theorem dense_layer_two_rows_differs :
  exists (x y z : ndarray scalar),
    shape x = [2; 2]
    /\ dense_layer x = ok y
    /\ batched_dense x = ok z
    /\ shape y = shape z
    /\ y <> z.
Proof.
  exists (array2 [[of_float (1 # 1); of_float (0 # 1)];
                  [of_float (0 # 1); of_float (0 # 1)]]).
  eexists. eexists.
  split; [reflexivity |].
  split; [vm_compute; reflexivity |].
  split; [vm_compute; reflexivity |].
  split; [reflexivity |].
  intros H. discriminate H.
Qed.





(** ** [vmap] results, entry by entry *)

Section StackFacts.
Context {T : Type} `{NumT : Num T}.

Lemma get_stack_rows (s : list nat) (g : nat -> ndarray T) (n i : nat)
      (idx : list nat) :
  i < n -> in_bounds idx s ->
  get (stack 0 s (map g (seq 0 n))) (i :: idx) = get (g i) idx.
Proof.
  intros Hi Hb. unfold stack. rewrite length_map, length_seq.
  rewrite get_build by (constructor; assumption).
  simpl. now rewrite nth_error_map_seq.
Qed.

Lemma vmap_wf (f : list (ndarray T) -> res (ndarray T))
      (in_axes : list (option nat)) (out_axes : nat)
      (args : list (ndarray T)) (y : ndarray T) :
  vmap f in_axes out_axes args = ok y -> wf y.
Proof.
  unfold vmap. destruct (negb _); [discriminate |].
  intros H. apply bind_ok in H. destruct H as (sizes & _ & H).
  apply bind_ok in H. destruct H as ([n |] & _ & H); [| discriminate].
  apply bind_ok in H. destruct H as (proto & _ & H).
  apply bind_ok in H. destruct H as (rs & _ & H).
  destruct (_ <? _); [discriminate |].
  injection H as <-. apply wf_build.
Qed.

Lemma dense_layer_scalar (x : ndarray T) :
  shape x = [] ->
  dense_layer x
  = ok (build [2; 2] (fun idx =>
          add (mul (get W idx) (get x [])) (get b [nth 1 idx 0]))).
Proof.
  intros Hx.
  change (dense_layer x) with (y <- dot W x ;; array_add y b).
  rewrite dot_scalar_right by assumption.
  unfold array_mul. rewrite binop_scalar_right by assumption.
  simpl bind. rewrite (@array_add_rows _ _ _ b 2 2) by easy.
  reflexivity.
Qed.
End StackFacts.

(** X8.  [jax.vmap(dense_layer)] on an unbatched vector of any length [n]
    raises nothing: each element scales the whole of [W], and the result
    has shape (n,2,2) with entry (i,r,c) equal to [W[r,c]*x[i] + b[c]]. *)
Theorem batched_dense_on_vector (T : Type) (NumT : Num T)
        (x : ndarray T) (n : nat) :
  shape x = [n] ->
  exists y,
    batched_dense x = ok y
    /\ shape y = [n; 2; 2]
    /\ forall i r c, i < n -> r < 2 -> c < 2 ->
         get y [i; r; c] = add (mul (get W [r; c]) (get x [i])) (get b [c]).
Proof.
  intros Hx. unfold batched_dense.
  rewrite vmap_stack
    with (sizes := [Some n]) (n := n)
         (g := fun i => build [2; 2] (fun idx =>
                 add (mul (get W idx) (get x [i])) (get b [nth 1 idx 0]))).
  - eexists. split; [reflexivity |]. split.
    + unfold stack. simpl. now rewrite length_map, length_seq.
    + intros i r c Hi Hr Hc. simpl shape.
      rewrite get_stack_rows by index_in_bounds.
      rewrite get_build by index_in_bounds. reflexivity.
  - reflexivity.
  - cbn -[take]. now rewrite Hx.
  - reflexivity.
  - intros i. cbn [map combine slice_arg fst snd apply1].
    rewrite dense_layer_scalar by (simpl; now rewrite Hx).
    f_equal. apply build_ext. intros idx _.
    rewrite get_take by (rewrite Hx; constructor). reflexivity.
  - simpl. lia.
Qed.

Lemma batched_dense_on_vector_witness :
  exists y, batched_dense (inputs_single (T := scalar)) = ok y
            /\ shape y = [2; 2; 2].
Proof.
  destruct (@batched_dense_on_vector scalar _ inputs_single 2)
    as (y & H1 & H2 & _); [reflexivity |].
  exists y. split; [exact H1 | exact H2].
Defined.





(** ** The two-argument functions on inputs of any size *)

(** X11.  [jax.vmap(func, in_axes = (0,0))] with [func(x,y) = x+y] on two
    vectors: when their lengths agree the result holds [x[i] + y[i]] at
    every index, and when they differ the call raises a ValueError. *)
Theorem vmap_zip_lengths (T : Type) (NumT : Num T)
        (x y : ndarray T) (n m : nat) :
  shape x = [n] -> shape y = [m] ->
  (n = m ->
   vmap (apply2 Zipping.func) [Some 0; Some 0] 0 [x; y]
   = ok (build [n] (fun idx => add (get x idx) (get y idx))))
  /\ (n <> m ->
      exists msg,
        vmap (apply2 Zipping.func) [Some 0; Some 0] 0 [x; y]
        = raise (ValueError msg)).
Proof.
  intros Hx Hy. split.
  - intros <-. unfold Zipping.func, array_add. now apply vmap_zip.
  - intros Hnm. unfold vmap. cbn -[take Zipping.func]. rewrite Hx, Hy.
    cbn -[take Zipping.func].
    destruct (Nat.eqb_spec n m); [contradiction |].
    eexists. reflexivity.
Qed.

Lemma vmap_zip_lengths_witness :
  exists msg,
    vmap (apply2 Zipping.func) [Some 0; Some 0] 0
         [array1 [I32 1; I32 2]; array1 [I32 1]]
    = raise (ValueError msg).
Proof.
  apply (@vmap_zip_lengths scalar _ (array1 [I32 1; I32 2]) (array1 [I32 1]) 2 1);
    [reflexivity | reflexivity | lia].
Defined.

(** X12.  [jax.vmap(func, in_axes = (None,0))] with [func(x,y) = x*y]: the
    argument marked [None] may have any shape; it meets every element of
    the vector [y] whole, so the result has the shape of [x] behind a
    leading axis of the length of [y], and entry (i, idx) is
    [x[idx] * y[i]]. *)
Theorem vmap_unbatched_any_shape (T : Type) (NumT : Num T)
        (x y : ndarray T) (n : nat) :
  shape y = [n] ->
  exists r,
    vmap (apply2 Unbatched.func) [None; Some 0] 0 [x; y] = ok r
    /\ shape r = n :: shape x
    /\ forall i idx, i < n -> in_bounds idx (shape x) ->
         get r (i :: idx) = mul (get x idx) (get y [i]).
Proof.
  intros Hy.
  rewrite vmap_stack
    with (sizes := [None; Some n]) (n := n)
         (g := fun i => build (shape x)
                          (fun idx => mul (get x idx) (get y [i]))).
  - eexists. split; [reflexivity |]. split.
    + unfold stack. simpl. now rewrite length_map, length_seq.
    + intros i idx Hi Hb. simpl shape.
      rewrite get_stack_rows by assumption.
      now rewrite get_build.
  - reflexivity.
  - cbn -[take]. now rewrite Hy.
  - reflexivity.
  - intros i. cbn [map combine slice_arg fst snd apply2].
    unfold Unbatched.func, array_mul.
    rewrite binop_scalar_right by (simpl; now rewrite Hy).
    f_equal. apply build_ext. intros idx Hb.
    rewrite (broadcast_index_self Hb).
    rewrite get_take by (rewrite Hy; constructor). reflexivity.
  - simpl. lia.
Qed.

Lemma vmap_unbatched_any_shape_witness :
  exists r,
    vmap (apply2 Unbatched.func) [None; Some 0] 0
         [inputs (T := scalar); Unbatched.y] = ok r
    /\ shape r = [3; 3; 2].
Proof.
  destruct (@vmap_unbatched_any_shape scalar _ inputs Unbatched.y 3)
    as (r & H1 & H2 & _); [reflexivity |].
  exists r. split; [exact H1 | exact H2].
Defined.

(** X13.  With [in_axes = (1,0)] on [x] of shape (1,n) and [y] of shape
    (n,1), for any [n]: [out_axes=1] gives shape (1,n) and [out_axes=0]
    shape (n,1); both hold [x[0,i] + y[i,0]] at batch position [i], and
    the first result is the transpose of the second. *)
Theorem vmap_non_leading_any (T : Type) (NumT : Num T)
        (x y : ndarray T) (n : nat) :
  shape x = [1; n] -> shape y = [n; 1] ->
  exists o1 o2,
    vmap (apply2 Zipping.func) [Some 1; Some 0] 1 [x; y] = ok o1
    /\ vmap (apply2 Zipping.func) [Some 1; Some 0] 0 [x; y] = ok o2
    /\ shape o1 = [1; n]
    /\ shape o2 = [n; 1]
    /\ (forall i, i < n ->
          get o1 [0; i] = add (get x [0; i]) (get y [i; 0])
          /\ get o2 [i; 0] = add (get x [0; i]) (get y [i; 0]))
    /\ o1 = transpose o2.
Proof.
  intros Hx Hy.
  set (g := fun i => build [1] (fun _ : list nat =>
                        add (get x [0; i]) (get y [i; 0]))).
  assert (Hg : forall i,
             apply2 Zipping.func
               (map (slice_arg i) (combine [Some 1; Some 0] [x; y]))
             = ok (g i)).
  { intros i. cbn [map combine slice_arg fst snd apply2].
    unfold Zipping.func, array_add.
    rewrite binop_same_shape by (simpl; now rewrite Hx, Hy).
    simpl shape. rewrite Hx. change (remove_at 1 [1; n]) with [1]. f_equal.
    apply build_ext. intros idx Hb.
    rewrite (broadcast_index_self Hb).
    apply in_bounds_vector in Hb. destruct Hb as (j & -> & Hj).
    rewrite !get_take by (rewrite ?Hx, ?Hy; index_in_bounds).
    replace j with 0 by lia. reflexivity. }
  assert (Hsz : mapM axis_size (combine [Some 1; Some 0] [x; y])
                = ok [Some n; Some n])
    by (cbn -[take]; now rewrite Hx, Hy).
  assert (Hc : common_size [Some n; Some n] = ok (Some n))
    by (simpl; now rewrite Nat.eqb_refl).
  rewrite vmap_stack
    with (out_axes := 1) (sizes := [Some n; Some n]) (n := n) (g := g);
    [| reflexivity | exact Hsz | exact Hc | exact Hg | simpl; lia].
  rewrite vmap_stack
    with (out_axes := 0) (sizes := [Some n; Some n]) (n := n) (g := g);
    [| reflexivity | exact Hsz | exact Hc | exact Hg | simpl; lia].
  eexists. eexists. split; [reflexivity |]. split; [reflexivity |].
  assert (Hlen : length (map g (seq 0 n)) = n)
    by now rewrite length_map, length_seq.
  split; [unfold stack; simpl; now rewrite Hlen |].
  split; [unfold stack; simpl; now rewrite Hlen |].
  split.
  - intros i Hi. unfold stack. rewrite Hlen.
    rewrite !get_build by index_in_bounds. simpl.
    rewrite nth_error_map_seq by assumption. split; reflexivity.
  - unfold transpose, stack. rewrite Hlen. simpl.
    apply build_ext. intros idx Hb.
    apply in_bounds_matrix in Hb. destruct Hb as (a & i & -> & Ha & Hi).
    rewrite get_build by index_in_bounds. simpl.
    rewrite nth_error_map_seq by assumption. reflexivity.
Qed.

Lemma vmap_non_leading_any_witness :
  exists o1 o2,
    NonLeading.out1 (T := scalar) = ok o1
    /\ NonLeading.out2 (T := scalar) = ok o2
    /\ o1 = transpose o2.
Proof.
  destruct (@vmap_non_leading_any scalar _
              NonLeading.x_batched NonLeading.y_batched 3)
    as (o1 & o2 & H1 & H2 & _ & _ & _ & H3); [reflexivity | reflexivity |].
  exists o1, o2. split; [exact H1 |]. split; [exact H2 | exact H3].
Defined.



(** X15.  The batched layers return float32 elements on every batch of
    shape (n,2), also when the batch holds int32 elements: the float32
    weights and bias promote them. *)
Theorem batched_layers_return_float32 (x : ndarray scalar) (n : nat) :
  shape x = [n; 2] ->
  exists y,
    einsum_layer x = ok y
    /\ transpose_layer x = ok y
    /\ batched_dense x = ok y
    /\ forallb is_float32 (data y) = true.
Proof.
  intros Hx. exists (index_notation n x).
  split; [now apply einsum_layer_index_notation |].
  split; [apply transpose_layer_index_notation;
          [exact Hx | exact scalar_mul_comm] |].
  split; [now apply batched_dense_index_notation |].
  apply forallb_forall. intros a Ha.
  unfold index_notation, build in Ha. cbn [data] in Ha.
  apply in_map_iff in Ha. destruct Ha as (idx & <- & Hin).
  apply in_indices, in_bounds_matrix in Hin.
  destruct Hin as (bi & i & -> & _ & Hi).
  cbv beta zeta. simpl nth.
  destruct i as [| [| i]]; [| | lia];
    match goal with
    | |- is_float32 (add ?u ?v) = true => destruct u; reflexivity
    end.
Qed.

Lemma batched_layers_return_float32_witness :
  exists y,
    batched_dense (array2 [[I32 1; I32 2]; [I32 3; I32 4]]) = ok y
    /\ forallb is_float32 (data y) = true.
Proof.
  destruct (@batched_layers_return_float32
              (array2 [[I32 1; I32 2]; [I32 3; I32 4]]) 2)
    as (y & _ & _ & H1 & H2); [reflexivity |].
  exists y. split; [exact H1 | exact H2].
Defined.

(** X16.  [jax.vmap(dense_layer)] raises a ValueError on an input without
    axes: there is no axis 0 to map over. *)
Theorem batched_dense_rejects_scalar (T : Type) (NumT : Num T)
        (x : ndarray T) :
  shape x = [] -> exists msg, batched_dense x = raise (ValueError msg).
Proof.
  intros Hx. unfold batched_dense, vmap. cbn -[dense_layer take].
  rewrite Hx. eexists. reflexivity.
Qed.

Lemma batched_dense_rejects_scalar_witness :
  exists msg,
    batched_dense (T := scalar) (array0 (of_float (3 # 1)))
    = raise (ValueError msg).
Proof. apply batched_dense_rejects_scalar. reflexivity. Defined.

(** ** The grid and its coordinates *)

(** X17.  The nested [vmap] of cell 20 on ranges of any lengths [n] and
    [m] returns an array of shape (n,m) whose entry (i,j) is
    [sin(xs[i]) * ys[j]]. *)
Theorem grid_over_any_ranges (T : Type) (NumT : Num T) (sin : T -> T)
        (xs ys : ndarray T) (n m : nat) :
  shape xs = [n] -> shape ys = [m] ->
  exists g,
    Grid.grid_func sin [xs; ys] = ok g
    /\ shape g = [n; m]
    /\ wf g
    /\ forall i j, i < n -> j < m ->
         get g [i; j] = mul (sin (get xs [i])) (get ys [j]).
Proof.
  intros Hxs Hys. rewrite grid_func_outer with (n := n) (m := m) by assumption.
  eexists. split; [reflexivity |]. split; [reflexivity |].
  split; [apply wf_build |].
  intros i j Hi Hj. rewrite get_build by index_in_bounds. reflexivity.
Qed.

Lemma grid_over_any_ranges_witness :
  exists g,
    Grid.grid_func sin_taylor
      [array1 [0 # 1; 1 # 2; 1 # 1]%Q; array1 [1 # 1; 2 # 1]%Q] = ok g
    /\ shape g = [3; 2].
Proof.
  destruct (@grid_over_any_ranges Q _ sin_taylor
              (array1 [0 # 1; 1 # 2; 1 # 1]%Q) (array1 [1 # 1; 2 # 1]%Q) 3 2)
    as (g & H1 & H2 & _); [reflexivity | reflexivity |].
  exists g. split; [exact H1 | exact H2].
Defined.

(** X18.  The coordinate arrays of [jnp.meshgrid(..., indexing = 'ij')]
    have the shape of the nested-[vmap] result, and evaluating [func] on
    them element by element returns that very result: [out[i,j]] belongs
    to the point [(grid[0][i,j], grid[1][i,j])] of the plot. *)
Theorem grid_matches_meshgrid (T : Type) (NumT : Num T) (sin : T -> T)
        (xs ys : ndarray T) (n m : nat) :
  shape xs = [n] -> shape ys = [m] ->
  exists gx gy,
    GridPlot.meshgrid xs ys ij = ok [gx; gy]
    /\ shape gx = [n; m]
    /\ shape gy = [n; m]
    /\ Grid.func sin gx gy = Grid.grid_func sin [xs; ys].
Proof.
  intros Hxs Hys. unfold GridPlot.meshgrid. rewrite Hxs, Hys.
  eexists. eexists. split; [reflexivity |].
  split; [reflexivity |]. split; [reflexivity |].
  rewrite grid_func_outer with (n := n) (m := m) by assumption.
  unfold Grid.func, array_mul. rewrite binop_same_shape by reflexivity.
  simpl shape. f_equal. apply build_ext. intros idx Hb.
  rewrite (broadcast_index_self Hb).
  rewrite get_elementwise by (apply wf_build || assumption).
  rewrite !get_build by assumption. reflexivity.
Qed.

Lemma grid_matches_meshgrid_witness :
  exists gx gy,
    GridPlot.grid linspace_exact = ok [gx; gy]
    /\ Grid.func sin_taylor gx gy = Grid.out sin_taylor linspace_exact.
Proof.
  destruct (@grid_matches_meshgrid Q _ sin_taylor
              (Grid.x_range linspace_exact) (Grid.y_range linspace_exact) 50 50)
    as (gx & gy & H1 & _ & _ & H2); [reflexivity | reflexivity |].
  exists gx, gy. split; [exact H1 | exact H2].
Defined.
